(** * torrent_free: private-to-public torrent conversion

    A shallow embedding of [torrent_free.py].  The script decodes a torrent
    file into a tree of Python objects, edits that tree in place (the private
    flag, the trackers, the webseeds) and writes the re-encoded tree.

    - A decoded bencode value is the inductive [Value]; a Python [dict] with
      [bytes] keys is a [gmap] (equality of maps is equality of dicts).
    - Python [bytes] are [string]s: one 8-bit character per byte.
    - Subscripting, [in], [del], [.get] and [.append] are total functions
      into [result], which records the exception Python raises.
    - The functions of the script mutate their argument; here they take the
      torrent and return the torrent they leave behind.  The decoded tree
      shares no mutable object between two places, so an update of a nested
      object is the update of the entry that holds it. *)

From Stdlib Require Import ZArith Ascii String.
From stdpp Require Import gmap strings list fin_maps pretty sorting.

#[local] Set Warnings "-register-all".
#[local] Open Scope string_scope.

(** ** Python values *)

Abbreviation bytes := string (only parsing).

Inductive Value : Type :=
| Int (n : Z)
| Bytes (s : bytes)
| List (l : list Value)
| Dict (m : gmap bytes Value).

Inductive exn : Type :=
| KeyError (k : bytes)
| TypeError
| AttributeError.

Inductive result (A : Type) : Type :=
| Ok (a : A)
| Raise (e : exn).

Arguments Ok {A} a.
Arguments Raise {A} e.

(** Sequencing: an exception ends the computation.  With these instances
    [x ← e; k] is stdpp's notation for "run [e], name its value [x], go on
    with [k]". *)
#[global] Instance result_bind : MBind result := fun A B k r =>
  match r with
  | Ok a => k a
  | Raise e => Raise e
  end.

#[global] Instance result_ret : MRet result := fun A a => Ok a.

(** [bool(v)]: zero, the empty bytes, the empty list and the empty dict
    are false. *)
Definition truthy (v : Value) : bool :=
  match v with
  | Int n => negb (n =? 0)%Z
  | Bytes s => negb (String.eqb s "")
  | List l => match l with [] => false | _ :: _ => true end
  | Dict m => negb (bool_decide (dom m = ∅))
  end.

(** [bool(o)] for the result of [.get] or of the decoder, where [None] is
    Python's [None]. *)
Definition truthy_opt (o : option Value) : bool :=
  match o with
  | Some v => truthy v
  | None => false
  end.

(** [sub in s] on bytes: [sub] occurs in [s] as a contiguous run. *)
Fixpoint bytes_contains (sub s : bytes) : bool :=
  String.prefix sub s ||
  match s with
  | EmptyString => false
  | String _ s' => bytes_contains sub s'
  end.

(** [v == k] for a bytes object [k]: only bytes equal bytes. *)
Definition eq_bytes (k : bytes) (v : Value) : bool :=
  match v with
  | Bytes s => String.eqb s k
  | _ => false
  end.

(** [v[k]] for a bytes key [k]. *)
Definition getitem (v : Value) (k : bytes) : result Value :=
  match v with
  | Dict m => match m !! k with
              | Some x => Ok x
              | None => Raise (KeyError k)
              end
  | _ => Raise TypeError
  end.

(** [v[k] = x] for a bytes key [k]. *)
Definition setitem (v : Value) (k : bytes) (x : Value) : result Value :=
  match v with
  | Dict m => Ok (Dict (<[k := x]> m))
  | _ => Raise TypeError
  end.

(** [del v[k]] for a bytes key [k]. *)
Definition delitem (v : Value) (k : bytes) : result Value :=
  match v with
  | Dict m => match m !! k with
              | Some _ => Ok (Dict (delete k m))
              | None => Raise (KeyError k)
              end
  | _ => Raise TypeError
  end.

(** [k in v] for a bytes object [k]: a key of a dict, an element of a
    list, a run of bytes in a bytes object; an int is not iterable. *)
Definition contains (k : bytes) (v : Value) : result bool :=
  match v with
  | Dict m => Ok (bool_decide (is_Some (m !! k)))
  | List l => Ok (existsb (eq_bytes k) l)
  | Bytes s => Ok (bytes_contains k s)
  | Int _ => Raise TypeError
  end.

(** [v.get(k)]: only a dict has the method. *)
Definition get (v : Value) (k : bytes) : result (option Value) :=
  match v with
  | Dict m => Ok (m !! k)
  | _ => Raise AttributeError
  end.

(** [v.append(x)]: only a list has the method. *)
Definition append (v : Value) (x : Value) : result Value :=
  match v with
  | List l => Ok (List (l ++ [x]))
  | _ => Raise AttributeError
  end.

(** [b'%s%s' % (root, name)]: [%s] takes a bytes-like object. *)
Definition bytes_format (root : bytes) (name : Value) : result Value :=
  match name with
  | Bytes n => Ok (Bytes (root ++ n))
  | _ => Raise TypeError
  end.

(** [for x in xs: body], threading the torrent through the iterations. *)
Fixpoint for_each {A : Type} (xs : list A) (body : A -> Value -> result Value)
    (torrent : Value) : result Value :=
  match xs with
  | [] => Ok torrent
  | x :: xs' => torrent' ← body x torrent; for_each xs' body torrent'
  end.

(** [torrent[k].append(x)]: the list held under [k] grows in place. *)
Definition append_at (k : bytes) (x : Value) (torrent : Value) : result Value :=
  held ← getitem torrent k;
  held' ← append held x;
  setitem torrent k held'.

(** ** The configuration as the script ships it *)

Definition default_TRACKERS : list bytes :=
  [ "udp://tracker.opentrackr.org:1337";
    "udp://tracker.coppersurfer.tk:6969";
    "udp://tracker.leechers-paradise.org:6969";
    "udp://zer0day.ch:1337";
    "udp://explodie.org:6969" ].

Definition default_WEBSEEDS : list bytes := [].

(** ** The three edits *)

(** Lines 47-55.  The result pairs the returned boolean with the torrent as
    the call leaves it; the deletion inside the object under [info] shows
    as a new value of that entry. *)
Definition remove_private (torrent : Value) : result (bool * Value) :=
  info ← getitem torrent "info";
  present ← contains "private" info;
  if negb present then Ok (false, torrent)
  else
    info' ← delitem info "private";
    torrent' ← setitem torrent "info" info';
    Ok (true, torrent').

Section Config.

Variables TRACKERS WEBSEEDS : list bytes.

(** Lines 57-73. *)
Definition swap_trackers (torrent : Value) : result Value :=
  match TRACKERS with
  | first :: _ =>
      torrent ← setitem torrent "announce" (Bytes first);
      if (1 <? length TRACKERS)%nat then
        torrent ← setitem torrent "announce-list" (List []);
        for_each TRACKERS
          (fun tracker => append_at "announce-list" (List [Bytes tracker]))
          torrent
      else Ok torrent
  | [] =>
      announce ← get torrent "announce";
      any ← (if truthy_opt announce then Ok true
             else tiers ← get torrent "announce-list";
                  Ok (truthy_opt tiers));
      if any : bool then
        announce ← get torrent "announce";
        torrent ← (if truthy_opt announce then delitem torrent "announce"
                   else Ok torrent);
        tiers ← get torrent "announce-list";
        if truthy_opt tiers then delitem torrent "announce-list"
        else Ok torrent
      else Ok torrent
  end.

(** Lines 75-88.  Line 81 stores the configured list itself; nothing
    changes that list afterwards, so its elements stand for it. *)
Definition swap_webseeds (torrent : Value) : result Value :=
  match WEBSEEDS with
  | _ :: _ =>
      info ← getitem torrent "info";
      multi ← contains "files" info;
      if multi : bool then
        setitem torrent "url-list" (List (map Bytes WEBSEEDS))
      else
        torrent ← setitem torrent "url-list" (List []);
        info ← getitem torrent "info";
        name ← getitem info "name";
        for_each WEBSEEDS
          (fun root torrent =>
             url ← bytes_format root name;
             append_at "url-list" url torrent)
          torrent
  | [] =>
      present ← contains "url-list" torrent;
      if present : bool then delitem torrent "url-list" else Ok torrent
  end.

(** Lines 113, 116 and 117 of [main] without the test on [force]: the three
    edits in their fixed order. *)
Definition pipeline (torrent : Value) : result (bool * Value) :=
  '(removed, torrent) ← remove_private torrent;
  torrent ← swap_trackers torrent;
  torrent ← swap_webseeds torrent;
  Ok (removed, torrent).

End Config.

(** ** The codec, as the specification describes it

    The script calls libtorrent for both directions.  [main] below takes the
    two functions as parameters; [decode] and [encode] are the instances the
    examples run on. *)

Definition is_digit (c : ascii) : bool :=
  (48 <=? nat_of_ascii c)%nat && (nat_of_ascii c <=? 57)%nat.

Definition digit_value (c : ascii) : Z := Z.of_nat (nat_of_ascii c) - 48.

(** The longest run of digits at the head of the input, and what follows. *)
Fixpoint take_digits (s : bytes) : list ascii * bytes :=
  match s with
  | String c s' =>
      if is_digit c then let '(ds, rest) := take_digits s' in (c :: ds, rest)
      else ([], s)
  | EmptyString => ([], s)
  end.

(** A decimal numeral: at least one digit, no leading zero but in [0]. *)
Definition decimal (ds : list ascii) : option Z :=
  match ds with
  | [] => None
  | "0"%char :: _ :: _ => None
  | _ => Some (foldl (fun acc c => 10 * acc + digit_value c)%Z 0%Z ds)
  end.

(** The first [n] bytes of the input, and what follows; nothing when fewer
    remain. *)
Fixpoint take_bytes (n : nat) (s : bytes) : option (bytes * bytes) :=
  match n with
  | O => Some ("", s)
  | S n' =>
      match s with
      | String c s' => '(b, rest) ← take_bytes n' s'; Some (String c b, rest)
      | EmptyString => None
      end
  end.

(** What follows the [i] of an integer: digits, an optional leading [-] for
    a negative number, then [e]. *)
Definition decode_integer (s : bytes) : option (Z * bytes) :=
  let '(negative, s) := match s with
                        | String "-"%char s' => (true, s')
                        | _ => (false, s)
                        end in
  let '(ds, rest) := take_digits s in
  n ← decimal ds;
  match rest with
  | String "e"%char rest' =>
      if negative then (if (n =? 0)%Z then None else Some (- n, rest'))%Z
      else Some (n, rest')
  | _ => None
  end.

(** [<length>:<raw bytes>]. *)
Definition decode_bytestring (s : bytes) : option (bytes * bytes) :=
  let '(ds, rest) := take_digits s in
  n ← decimal ds;
  match rest with
  | String ":"%char rest' => take_bytes (Z.to_nat n) rest'
  | _ => None
  end.

(** One value at the head of the input, and what follows.  The fuel bounds
    the depth of the calls; of two calls in a row at least one reads a
    byte. *)
Fixpoint decode_value (fuel : nat) (s : bytes) : option (Value * bytes) :=
  match fuel with
  | O => None
  | S fuel' =>
      match s with
      | String "i"%char rest =>
          '(n, rest) ← decode_integer rest; Some (Int n, rest)
      | String "l"%char rest =>
          '(l, rest) ← decode_items fuel' rest; Some (List l, rest)
      | String "d"%char rest =>
          '(m, rest) ← decode_pairs fuel' rest; Some (Dict m, rest)
      | _ => '(b, rest) ← decode_bytestring s; Some (Bytes b, rest)
      end
  end
with decode_items (fuel : nat) (s : bytes) : option (list Value * bytes) :=
  match fuel with
  | O => None
  | S fuel' =>
      match s with
      | String "e"%char rest => Some ([], rest)
      | _ =>
          '(v, rest) ← decode_value fuel' s;
          '(vs, rest) ← decode_items fuel' rest;
          Some (v :: vs, rest)
      end
  end
with decode_pairs (fuel : nat) (s : bytes) : option (gmap bytes Value * bytes) :=
  match fuel with
  | O => None
  | S fuel' =>
      match s with
      | String "e"%char rest => Some (∅, rest)
      | _ =>
          '(k, rest) ← decode_bytestring s;
          '(v, rest) ← decode_value fuel' rest;
          '(m, rest) ← decode_pairs fuel' rest;
          Some (<[k := v]> m, rest)
      end
  end.

(** Modelled from the spec: the bencode decoder of section 4.1, which the
    script takes from libtorrent ([lt.bdecode]).  Keys are accepted in any
    order; bytes left over after the top-level value are an error.  [None]
    is the failure that the script sees as Python's [None]. *)
Definition decode (input : bytes) : option Value :=
  match decode_value (2 * String.length input + 1) input with
  | Some (v, EmptyString) => Some v
  | _ => None
  end.

Definition key_le (p q : bytes * bytes) : Prop := String.leb p.1 q.1.

#[global] Instance key_le_dec : RelDecision key_le.
Proof. intros p q. unfold key_le. apply _. Defined.

(** Modelled from the spec: the bencode encoder of section 4.2, which the
    script takes from libtorrent ([lt.bencode]).  The entries of a
    dictionary are written in ascending order of their keys. *)
Fixpoint encode (v : Value) : bytes :=
  match v with
  | Int n => "i" ++ pretty n ++ "e"
  | Bytes s => pretty (String.length s) ++ ":" ++ s
  | List l => "l" ++ String.concat "" (map encode l) ++ "e"
  | Dict m =>
      "d" ++ String.concat ""
               (map (fun '(k, e) => pretty (String.length k) ++ ":" ++ k ++ e)
                    (merge_sort key_le (map_to_list (encode <$> m))))
          ++ "e"
  end.

(** ** The program *)

(** What the script prints before it stops. *)
Inductive message : Type :=
| NotAProperTorrent   (* 'The source file does not seem to be a proper torrent file.' *)
| AlreadyPublic       (* 'This torrent is already public. Stopping...' *)
| WrittenSuccessfully (* 'The torrent %s was written successfully.' *)
| CouldNotWrite.      (* 'Could not write %s.' *)

(** How a call ends: it returns, it calls [exit] after a message, or an
    exception nobody catches ends the process with a traceback. *)
Inductive ending (A : Type) : Type :=
| Returned (a : A)
| Exited (status : Z) (said : message)
| Uncaught (e : exn).

Arguments Returned {A} a.
Arguments Exited {A} status said.
Arguments Uncaught {A} e.

(** The destination file, already opened for writing by the argument
    parser: either it takes what is written, or writing raises [IOError]. *)
Inductive file : Type :=
| Writable
| Failing.

(** The parsed command line: the bytes of the source file, the destination
    and the [-f] flag. *)
Record Namespace : Type := {
  source : bytes;
  destination : file;
  force : bool
}.

Section Codec.

Variable bdecode : bytes -> option Value.
Variable bencode : Value -> bytes.
Variables TRACKERS WEBSEEDS : list bytes.

(** Lines 90-99.  The second component is what the destination holds
    afterwards: [None] when nothing was written to it. *)
Definition write_torrent (torrent : Value) (fd : file) : bool * option bytes :=
  match fd with
  | Writable => (true, Some (bencode torrent))
  | Failing => (false, None)
  end.

(** Lines 101-118. *)
Definition main (results : Namespace) : ending bool * option bytes :=
  let torrent := bdecode (source results) in
  if negb (truthy_opt torrent) then (Exited 1 NotAProperTorrent, None)
  else
    match torrent with
    | None => (Exited 1 NotAProperTorrent, None)
    | Some torrent =>
        match remove_private torrent with
        | Raise e => (Uncaught e, None)
        | Ok (removed, torrent) =>
            if negb removed && negb (force results)
            then (Exited 2 AlreadyPublic, None)
            else
              match (torrent ← swap_trackers TRACKERS torrent;
                     swap_webseeds WEBSEEDS torrent) with
              | Raise e => (Uncaught e, None)
              | Ok torrent =>
                  let '(success, written) :=
                    write_torrent torrent (destination results) in
                  (Returned success, written)
              end
        end
    end.

(** Lines 138-146: the exit status of the process. *)
Definition script (results : Namespace) : ending False * option bytes :=
  match main results with
  | (Returned true, written) => (Exited 0 WrittenSuccessfully, written)
  | (Returned false, written) => (Exited 3 CouldNotWrite, written)
  | (Exited status said, written) => (Exited status said, written)
  | (Uncaught e, written) => (Uncaught e, written)
  end.

End Codec.

(** ** Vocabulary of the statements *)

(** The tier that holds the single tracker [t]. *)
Definition tier (t : bytes) : Value := List [Bytes t].

(** What lines 70-73 do to one key: the entry goes when its value counts
    as true. *)
Definition drop_if_truthy (k : bytes) (m : gmap bytes Value) : gmap bytes Value :=
  if truthy_opt (m !! k) then delete k m else m.

(** The keys of the top level that the edits write or delete, and [info],
    which one edit reaches into. *)
Definition edited_keys : list bytes :=
  ["announce"; "announce-list"; "url-list"; "info"].

(** A dictionary that agrees with [m] on every key but [k]. *)
Definition agrees_but (k : bytes) (m : gmap bytes Value) (v : Value) : Prop :=
  exists m' : gmap bytes Value,
    v = Dict m' /\ forall j, j ≠ k -> m' !! j = m !! j.

(** What [swap_trackers] leaves of a dictionary. *)
Definition trackers_swapped (T : list bytes) (m : gmap bytes Value)
    : gmap bytes Value :=
  match T with
  | [] => drop_if_truthy "announce-list" (drop_if_truthy "announce" m)
  | [t] => <["announce" := Bytes t]> m
  | t :: _ :: _ =>
      <["announce-list" := List (map tier T)]> (<["announce" := Bytes t]> m)
  end.

(** The entry that [swap_trackers] leaves under a key. *)
Definition tracker_entry (T : list bytes) (k : bytes) (old : option Value)
    : option Value :=
  if decide (k = "announce") then
    match T with
    | [] => if truthy_opt old then None else old
    | t :: _ => Some (Bytes t)
    end
  else if decide (k = "announce-list") then
    match T with
    | [] => if truthy_opt old then None else old
    | [_] => old
    | _ :: _ :: _ => Some (List (map tier T))
    end
  else old.

(** The value that [swap_webseeds] computes for [url-list] from the entry
    under [info]; [None] when the key is to go. *)
Definition webseeds_for (W : list bytes) (info : option Value)
    : result (option Value) :=
  match W with
  | [] => Ok None
  | _ :: _ =>
      match info with
      | None => Raise (KeyError "info")
      | Some i =>
          multi ← contains "files" i;
          if multi : bool then Ok (Some (List (map Bytes W)))
          else
            name ← getitem i "name";
            match name with
            | Bytes n => Ok (Some (List (map (fun root => Bytes (root ++ n)) W)))
            | _ => Raise TypeError
            end
      end
  end.

(** The entry under [k] becomes [o], or goes when [o] is [None]. *)
Definition set_or_delete (k : bytes) (o : option Value)
    (m : gmap bytes Value) : gmap bytes Value :=
  match o with
  | Some x => <[k := x]> m
  | None => delete k m
  end.

(** ** Sample torrents *)

Definition private_info : gmap bytes Value :=
  {[ "name" := Bytes "file.iso";
     "piece length" := Int 16384;
     "private" := Int 1 ]}.

Definition public_info : gmap bytes Value :=
  {[ "name" := Bytes "file.iso"; "piece length" := Int 16384 ]}.

Definition multi_info : gmap bytes Value :=
  {[ "files" := List [Dict {[ "length" := Int 3;
                              "path" := List [Bytes "a.txt"] ]}];
     "name" := Bytes "album";
     "private" := Int 1 ]}.

(** A private torrent with one tracker, two tiers and a comment. *)
Definition private_torrent : gmap bytes Value :=
  {[ "announce" := Bytes "http://tracker.example/announce";
     "announce-list" := List [tier "http://tracker.example/announce";
                              tier "http://backup.example/announce"];
     "comment" := Bytes "made by hand";
     "info" := Dict private_info ]}.

Definition public_torrent : gmap bytes Value :=
  {[ "comment" := Bytes "made by hand"; "info" := Dict public_info ]}.

Definition multi_torrent : gmap bytes Value :=
  {[ "info" := Dict multi_info ]}.

(** A torrent file whose [announce] is the empty bytes, and what it
    decodes to. *)
Definition empty_announce_source : bytes :=
  "d8:announce0:4:infod4:name8:file.iso7:privatei1eee".

Definition empty_announce_torrent : gmap bytes Value :=
  {[ "announce" := Bytes "";
     "info" := Dict {[ "name" := Bytes "file.iso"; "private" := Int 1 ]} ]}.

(** A file that holds the bencoded integer 5, and a public single-file
    torrent. *)
Definition integer_source : bytes := "i5e".

Definition public_source : bytes := "d4:infod4:name8:file.isoee".

(** A single-file torrent whose [info] has no [name], one whose [name] is
    an integer, and a dictionary that is no torrent. *)
Definition nameless_torrent : gmap bytes Value :=
  {[ "info" := Dict {[ "piece length" := Int 16384; "private" := Int 1 ]} ]}.

Definition numbered_torrent : gmap bytes Value :=
  {[ "info" := Dict {[ "name" := Int 7; "private" := Int 1 ]} ]}.

Definition stray_dictionary : gmap bytes Value :=
  {[ "comment" := Bytes "not a torrent" ]}.

(** * Properties *)

(** ** Python operations on dictionaries *)

(** Runs the operations whose arguments are known. *)
Ltac run :=
  cbn [mbind result_bind mret result_ret getitem setitem delitem get
       contains append append_at bytes_format truthy_opt].

Lemma bind_Ok {A B : Type} (a : A) (k : A -> result B) :
  (x ← Ok a; k x) = k a.
Proof. reflexivity. Qed.

Lemma getitem_Dict (m : gmap bytes Value) k x :
  m !! k = Some x -> getitem (Dict m) k = Ok x.
Proof. intros H. unfold getitem. by rewrite H. Qed.

(** A dictionary with an entry is not empty, so it counts as true. *)
Lemma truthy_Dict (m : gmap bytes Value) k x :
  m !! k = Some x -> truthy (Dict m) = true.
Proof.
  intros H. simpl. apply negb_true_iff, bool_decide_eq_false.
  intros E. apply (not_elem_of_empty (C := gset bytes) k).
  rewrite <- E. apply elem_of_dom. eauto.
Qed.

(** ** Loops that grow a list held by the torrent *)

Lemma append_at_Dict (m : gmap bytes Value) k l x :
  m !! k = Some (List l) ->
  append_at k x (Dict m) = Ok (Dict (<[k := List (l ++ [x])]> m)).
Proof. intros H. unfold append_at. by rewrite (getitem_Dict _ _ _ H). Qed.

(** The invariant of both loops of the script: after the iterations for
    [xs], the list under [k] is what it was, followed by one element per
    entry of [xs], in order. *)
Lemma for_each_append_at {A : Type} (f : A -> Value) body k (xs : list A) :
  (forall x torrent, body x torrent = append_at k (f x) torrent) ->
  forall (m : gmap bytes Value) l,
    m !! k = Some (List l) ->
    for_each xs body (Dict m) = Ok (Dict (<[k := List (l ++ map f xs)]> m)).
Proof.
  intros Hbody. induction xs as [|x xs IH]; intros m l Hk; simpl.
  - rewrite app_nil_r. by rewrite insert_id.
  - rewrite Hbody, (append_at_Dict _ _ _ _ Hk), bind_Ok.
    rewrite (IH _ (l ++ [f x])%list) by apply lookup_insert_eq.
    by rewrite insert_insert_eq, <- app_assoc.
Qed.

(** ** [swap_trackers] on a dictionary *)

Lemma swap_trackers_one t (m : gmap bytes Value) :
  swap_trackers [t] (Dict m) = Ok (Dict (<["announce" := Bytes t]> m)).
Proof. reflexivity. Qed.

Lemma swap_trackers_many t1 t2 rest (m : gmap bytes Value) :
  swap_trackers (t1 :: t2 :: rest) (Dict m) =
  Ok (Dict (<["announce-list" := List (map tier (t1 :: t2 :: rest))]>
              (<["announce" := Bytes t1]> m))).
Proof.
  unfold swap_trackers.
  change (1 <? length (t1 :: t2 :: rest))%nat with true.
  unfold setitem. rewrite !bind_Ok.
  erewrite (for_each_append_at tier); [|done|apply lookup_insert_eq].
  by rewrite insert_insert_eq.
Qed.

Lemma swap_trackers_nil (m : gmap bytes Value) :
  swap_trackers [] (Dict m) =
  Ok (Dict (drop_if_truthy "announce-list" (drop_if_truthy "announce" m))).
Proof.
  unfold swap_trackers, drop_if_truthy. run.
  destruct (m !! "announce") as [a|] eqn:Ha; run.
  - destruct (truthy a); run.
    + destruct (delete "announce" m !! "announce-list") as [l|]; run; [|done].
      by destruct (truthy l).
    + destruct (m !! "announce-list") as [l|]; run; [|done].
      by destruct (truthy l).
  - destruct (m !! "announce-list") as [l|]; run; [|done].
    by destruct (truthy l).
Qed.

Lemma drop_if_truthy_ne k k' (m : gmap bytes Value) :
  k ≠ k' -> drop_if_truthy k m !! k' = m !! k'.
Proof.
  intros H. unfold drop_if_truthy.
  destruct (truthy_opt (m !! k)); [by rewrite lookup_delete_ne | done].
Qed.

(** On a dictionary [swap_trackers] raises nothing, and it leaves every
    key but its two alone. *)
Lemma swap_trackers_frame T (m : gmap bytes Value) :
  exists m' : gmap bytes Value,
    swap_trackers T (Dict m) = Ok (Dict m') /\
    forall k, k ≠ "announce" -> k ≠ "announce-list" -> m' !! k = m !! k.
Proof.
  destruct T as [|t1 [|t2 rest]]; eexists; split;
    [apply swap_trackers_nil | | apply swap_trackers_one |
     | apply swap_trackers_many | ]; intros k H1 H2.
  - by rewrite !drop_if_truthy_ne.
  - by rewrite lookup_insert_ne.
  - by rewrite !lookup_insert_ne.
Qed.

(** ** [remove_private] *)

Lemma remove_private_present (m info : gmap bytes Value) x :
  m !! "info" = Some (Dict info) ->
  info !! "private" = Some x ->
  remove_private (Dict m) =
  Ok (true, Dict (<["info" := Dict (delete "private" info)]> m)).
Proof.
  intros Hm Hp. unfold remove_private. run. rewrite Hm. run.
  rewrite bool_decide_eq_true_2 by eauto. cbn [negb]. by rewrite Hp.
Qed.

Lemma remove_private_absent (m info : gmap bytes Value) :
  m !! "info" = Some (Dict info) ->
  info !! "private" = None ->
  remove_private (Dict m) = Ok (false, Dict m).
Proof.
  intros Hm Hp. unfold remove_private. run. rewrite Hm. run.
  rewrite bool_decide_eq_false_2; [done|]. rewrite Hp. by intros [? ?].
Qed.

(** Whatever it is given, a call of [remove_private] that returns was given
    a dictionary with an [info] entry, and either reports [False] and
    changes nothing, or reports [True] after it deleted [private] from the
    dictionary under [info]. *)
Lemma remove_private_inv v removed v' :
  remove_private v = Ok (removed, v') ->
  exists (m : gmap bytes Value) i,
    v = Dict m /\ m !! "info" = Some i /\
    ((removed = false /\ v' = v) \/
     (exists info : gmap bytes Value,
        removed = true /\ i = Dict info /\ is_Some (info !! "private") /\
        v' = Dict (<["info" := Dict (delete "private" info)]> m))).
Proof.
  unfold remove_private. destruct v as [n|s|l|m]; run; try discriminate.
  destruct (m !! "info") as [i|] eqn:Hm; run; [|discriminate].
  intros H. exists m, i. split; [done|]. split; [done|]. revert H.
  destruct i as [n|s|l|info]; run; try discriminate.
  - left. destruct (bytes_contains "private" s); by inversion H.
  - left. destruct (existsb (eq_bytes "private") l); by inversion H.
  - destruct (info !! "private") as [x|] eqn:Hp.
    + rewrite bool_decide_eq_true_2 by eauto. cbn [negb].
      inversion 1. right. exists info. eauto.
    + rewrite bool_decide_eq_false_2 by (by intros [? ?]).
      inversion 1. by left.
Qed.

(** ** [swap_webseeds] on a dictionary *)

Lemma swap_webseeds_nil (m : gmap bytes Value) :
  swap_webseeds [] (Dict m) = Ok (Dict (delete "url-list" m)).
Proof.
  unfold swap_webseeds. run.
  destruct (m !! "url-list") as [x|] eqn:Hu.
  - by rewrite bool_decide_eq_true_2 by eauto.
  - rewrite bool_decide_eq_false_2 by (by intros [? ?]).
    by rewrite delete_id.
Qed.

Lemma swap_webseeds_multi w W (m info : gmap bytes Value) x :
  m !! "info" = Some (Dict info) ->
  info !! "files" = Some x ->
  swap_webseeds (w :: W) (Dict m) =
  Ok (Dict (<["url-list" := List (map Bytes (w :: W))]> m)).
Proof.
  intros Hm Hf. unfold swap_webseeds. run. rewrite Hm. run.
  by rewrite bool_decide_eq_true_2 by eauto.
Qed.

Lemma swap_webseeds_single w W (m info : gmap bytes Value) name :
  m !! "info" = Some (Dict info) ->
  info !! "files" = None ->
  info !! "name" = Some (Bytes name) ->
  swap_webseeds (w :: W) (Dict m) =
  Ok (Dict (<["url-list" :=
              List (map (fun root => Bytes (root ++ name)) (w :: W))]> m)).
Proof.
  intros Hm Hf Hn. unfold swap_webseeds. run. rewrite Hm. run.
  rewrite bool_decide_eq_false_2 by (rewrite Hf; by intros [? ?]).
  rewrite (lookup_insert_ne _ "url-list" "info"), Hm by done.
  run. rewrite Hn. run.
  erewrite (for_each_append_at (fun root => Bytes (root ++ name)));
    [|done|apply lookup_insert_eq].
  by rewrite insert_insert_eq.
Qed.

(** A property of the torrent that every iteration keeps holds after the
    loop, when the loop ends without an exception. *)
Lemma for_each_invariant {A : Type} (P : Value -> Prop) body (xs : list A) :
  (forall x torrent torrent',
     P torrent -> body x torrent = Ok torrent' -> P torrent') ->
  forall torrent torrent',
    P torrent -> for_each xs body torrent = Ok torrent' -> P torrent'.
Proof.
  intros Hbody. induction xs as [|x xs IH]; intros t t' HP; cbn [for_each].
  - by intros [= <-].
  - destruct (body x t) as [t1|e] eqn:Hb; run; [|discriminate].
    apply IH. eauto.
Qed.

Lemma append_at_agrees k x (m : gmap bytes Value) torrent torrent' :
  agrees_but k m torrent ->
  append_at k x torrent = Ok torrent' ->
  agrees_but k m torrent'.
Proof.
  intros (m' & -> & Hm'). unfold append_at. run.
  destruct (m' !! k) as [held|]; run; [|discriminate].
  destruct held as [| |l|]; run; try discriminate.
  inversion 1. eexists. split; [done|].
  intros j Hj. by rewrite lookup_insert_ne, Hm'.
Qed.

(** Whenever [swap_webseeds] returns on a dictionary, it leaves a
    dictionary that differs at most under [url-list]. *)
Lemma swap_webseeds_frame W (m : gmap bytes Value) torrent' :
  swap_webseeds W (Dict m) = Ok torrent' ->
  agrees_but "url-list" m torrent'.
Proof.
  destruct W as [|w W].
  - rewrite swap_webseeds_nil. inversion 1. eexists. split; [done|].
    intros j Hj. by rewrite lookup_delete_ne.
  - unfold swap_webseeds. run.
    destruct (m !! "info") as [i|] eqn:Hm; run; [|discriminate].
    destruct (contains "files" i) as [[|]|e]; run; try discriminate.
    + inversion 1. eexists. split; [done|].
      intros j Hj. by rewrite lookup_insert_ne.
    + rewrite (lookup_insert_ne _ "url-list" "info"), Hm by done. run.
      destruct (getitem i "name") as [name|e]; run; [|discriminate].
      apply for_each_invariant.
      * intros root t t' Ht.
        destruct (bytes_format root name) as [url|e]; run; [|discriminate].
        by apply append_at_agrees.
      * eexists. split; [done|]. intros j Hj. by rewrite lookup_insert_ne.
Qed.

(** On a document with a bytes [name], [swap_webseeds] raises nothing. *)
Lemma swap_webseeds_document W (m info : gmap bytes Value) name :
  m !! "info" = Some (Dict info) ->
  info !! "name" = Some (Bytes name) ->
  exists m' : gmap bytes Value, swap_webseeds W (Dict m) = Ok (Dict m').
Proof.
  intros Hm Hn. destruct W as [|w W].
  - eexists. apply swap_webseeds_nil.
  - destruct (info !! "files") as [x|] eqn:Hf; eexists.
    + by eapply swap_webseeds_multi.
    + by eapply swap_webseeds_single.
Qed.

(** ** The three edits in a row *)

Lemma not_edited_key k :
  k ∉ edited_keys ->
  k ≠ "announce" /\ k ≠ "announce-list" /\ k ≠ "url-list" /\ k ≠ "info".
Proof. unfold edited_keys. set_solver. Qed.

(** Whatever it is given, a run of the three edits that ends without an
    exception was given a dictionary and leaves a dictionary; outside the
    four keys the two agree, and the [info] entry is what it was, or the
    same dictionary without [private]. *)
Lemma pipeline_returns_agrees T W v removed v' :
  pipeline T W v = Ok (removed, v') ->
  exists m m' : gmap bytes Value,
    v = Dict m /\ v' = Dict m' /\
    (forall k, k ∉ edited_keys -> m' !! k = m !! k) /\
    (m' !! "info" = m !! "info" \/
     exists info : gmap bytes Value,
       m !! "info" = Some (Dict info) /\
       m' !! "info" = Some (Dict (delete "private" info))).
Proof.
  unfold pipeline.
  destruct (remove_private v) as [[r v1]|e] eqn:H1; run; [|discriminate].
  apply remove_private_inv in H1 as (m & i & -> & Hm & H1).
  assert (exists m1 : gmap bytes Value,
            v1 = Dict m1 /\ (forall k, k ≠ "info" -> m1 !! k = m !! k) /\
            (m1 !! "info" = m !! "info" \/
             exists info : gmap bytes Value,
               m !! "info" = Some (Dict info) /\
               m1 !! "info" = Some (Dict (delete "private" info))))
    as (m1 & -> & Hk1 & Hi1).
  { destruct H1 as [[_ ->]|(info & _ & -> & _ & ->)].
    - exists m. eauto.
    - eexists. split; [done|]. split.
      + intros k Hk. by rewrite lookup_insert_ne.
      + right. exists info. by rewrite lookup_insert_eq. }
  destruct (swap_trackers_frame T m1) as (m2 & -> & Hk2). run.
  destruct (swap_webseeds W (Dict m2)) as [v3|e] eqn:H3; run; [|discriminate].
  apply swap_webseeds_frame in H3 as (m3 & -> & Hk3).
  inversion 1; subst. exists m, m3. split; [done|]. split; [done|]. split.
  - intros k (Ha & Hl & Hu & Hi)%not_edited_key.
    by rewrite Hk3, Hk2, Hk1.
  - rewrite Hk3, Hk2 by done. done.
Qed.

(** On a torrent document the three edits in a row raise nothing, and
    the boolean that comes back tells whether [info] had [private]. *)
Lemma pipeline_document T W (m info : gmap bytes Value) name :
  m !! "info" = Some (Dict info) ->
  info !! "name" = Some (Bytes name) ->
  exists m' : gmap bytes Value,
    pipeline T W (Dict m) =
    Ok (bool_decide (is_Some (info !! "private")), Dict m').
Proof.
  intros Hm Hn.
  assert (exists info1 : gmap bytes Value,
            remove_private (Dict m) =
              Ok (bool_decide (is_Some (info !! "private")),
                  Dict (<["info" := Dict info1]> m)) /\
            info1 !! "name" = Some (Bytes name))
    as (info1 & H1 & Hn1).
  { destruct (info !! "private") as [x|] eqn:Hp.
    - exists (delete "private" info). split.
      + rewrite bool_decide_eq_true_2 by eauto.
        by eapply remove_private_present.
      + by rewrite lookup_delete_ne.
    - exists info. split; [|done].
      rewrite bool_decide_eq_false_2 by (by intros [? ?]).
      rewrite insert_id by done. by eapply remove_private_absent. }
  destruct (swap_trackers_frame T (<["info" := Dict info1]> m))
    as (m2 & H2 & Hk2).
  destruct (swap_webseeds_document W m2 info1 name) as (m3 & H3); [|done|].
  { rewrite Hk2 by done. apply lookup_insert_eq. }
  exists m3. unfold pipeline. rewrite H1. run. rewrite H2. run.
  by rewrite H3.
Qed.

(** Whatever it is given, when [remove_private] returns, a second call on
    what it left reports [False] and changes nothing. *)
Lemma remove_private_twice v removed v' :
  remove_private v = Ok (removed, v') ->
  remove_private v' = Ok (false, v').
Proof.
  intros H. destruct (remove_private_inv _ _ _ H)
    as (m & i & -> & Hm & [[-> ->]|(info & -> & -> & _ & ->)]); [done|].
  eapply remove_private_absent; [apply lookup_insert_eq|].
  apply lookup_delete_eq.
Qed.

(** ** [main] *)

Section Main.

Variable bdecode : bytes -> option Value.
Variable bencode : Value -> bytes.
Variables TRACKERS WEBSEEDS : list bytes.

(** An input that the decoder rejects is reported as no proper torrent,
    and nothing is written. *)
Lemma main_undecodable results :
  bdecode (source results) = None ->
  main bdecode bencode TRACKERS WEBSEEDS results = (Exited 1 NotAProperTorrent, None).
Proof. intros H. unfold main. by rewrite H. Qed.

(** A decoded value that is not a dictionary is reported as no proper
    torrent when it counts as false; otherwise the first subscript of
    [remove_private] raises [TypeError], which nothing catches.  Nothing is
    written in either case. *)
Lemma main_not_dictionary results v :
  bdecode (source results) = Some v ->
  (forall m, v ≠ Dict m) ->
  main bdecode bencode TRACKERS WEBSEEDS results =
  (if truthy v then Uncaught TypeError else Exited 1 NotAProperTorrent, None).
Proof.
  intros H Hv. unfold main. rewrite H. cbn [truthy_opt].
  destruct (truthy v); [|done]. cbn [negb].
  destruct v as [n|s|l|m]; try done. by destruct (Hv m).
Qed.

(** On a decoded dictionary with an [info] entry, [main] runs the three
    edits; [force] matters only when [private] was not there. *)
Lemma main_runs_pipeline results (m : gmap bytes Value) i :
  bdecode (source results) = Some (Dict m) ->
  m !! "info" = Some i ->
  main bdecode bencode TRACKERS WEBSEEDS results =
  match pipeline TRACKERS WEBSEEDS (Dict m) with
  | Ok (removed, torrent) =>
      if negb removed && negb (force results)
      then (Exited 2 AlreadyPublic, None)
      else let '(success, written) :=
             write_torrent bencode torrent (destination results) in
           (Returned success, written)
  | Raise e =>
      match remove_private (Dict m) with
      | Ok (false, _) =>
          if force results then (Uncaught e, None)
          else (Exited 2 AlreadyPublic, None)
      | _ => (Uncaught e, None)
      end
  end.
Proof.
  intros H Hm. unfold main, pipeline. rewrite H.
  cbn [truthy_opt]. rewrite (truthy_Dict _ _ _ Hm). cbn [negb].
  destruct (remove_private (Dict m)) as [[removed t1]|e]; run; [|done].
  destruct (swap_trackers TRACKERS t1) as [t2|e]; run.
  - destruct (swap_webseeds WEBSEEDS t2) as [t3|e]; run; [done|].
    by destruct removed, (force results).
  - by destruct removed, (force results).
Qed.

End Main.

(** ** The script at work *)

Example swap_trackers_three :
  swap_trackers ["A"; "B"; "C"] (Dict ∅) =
  Ok (Dict {[ "announce" := Bytes "A";
              "announce-list" := List [tier "A"; tier "B"; tier "C"] ]}).
Proof. vm_compute. reflexivity. Qed.

Example decode_truncated : decode "5:abc" = None.
Proof. vm_compute. reflexivity. Qed.

Example script_private_torrent :
  script decode encode ["udp://a:1"; "udp://b:2"] ["http://host/path/"]
    {| source := "d8:announce8:http://x7:comment2:hi4:infod4:name8:file.iso7:privatei1eee";
       destination := Writable; force := false |}
  = (Exited 0 WrittenSuccessfully,
     Some "d8:announce9:udp://a:113:announce-listll9:udp://a:1el9:udp://b:2ee7:comment2:hi4:infod4:name8:file.isoe8:url-listl25:http://host/path/file.isoee").
Proof. vm_compute. reflexivity. Qed.

Example script_write_fails :
  script decode encode default_TRACKERS default_WEBSEEDS
    {| source := "d4:infod4:name8:file.iso7:privatei1eee";
       destination := Failing; force := false |}
  = (Exited 3 CouldNotWrite, None).
Proof. vm_compute. reflexivity. Qed.

(** * The claims *)

(** C1.  With a non-empty tracker list [T], [swap_trackers] turns a
    dictionary into one whose [announce] is [T[0]]; when [T] has more than
    one element, its [announce-list] is the list of the one-tracker tiers
    of [T], in the order of [T]. *)
Theorem swap_trackers_sets_trackers (T : list bytes) (m : gmap bytes Value) :
  T ≠ [] ->
  exists (first : bytes) (m' : gmap bytes Value),
    T !! 0 = Some first /\
    swap_trackers T (Dict m) = Ok (Dict m') /\
    m' !! "announce" = Some (Bytes first) /\
    (1 < length T -> m' !! "announce-list" = Some (List (map tier T))).
Proof.
  intros HT. destruct T as [|t1 [|t2 rest]]; [done| |].
  - exists t1. eexists. split; [done|]. split; [apply swap_trackers_one|].
    split; [apply lookup_insert_eq|]. cbn [length]. lia.
  - exists t1. eexists. split; [done|]. split; [apply swap_trackers_many|].
    split.
    + rewrite lookup_insert_ne by done. apply lookup_insert_eq.
    + intros _. apply lookup_insert_eq.
Qed.

Lemma swap_trackers_sets_trackers_witness :
  ["A"; "B"; "C"] ≠ [] /\
  exists (first : bytes) (m' : gmap bytes Value),
    ["A"; "B"; "C"] !! 0 = Some first /\
    swap_trackers ["A"; "B"; "C"] (Dict private_torrent) = Ok (Dict m') /\
    m' !! "announce" = Some (Bytes first) /\
    (1 < length ["A"; "B"; "C"] ->
     m' !! "announce-list" = Some (List (map tier ["A"; "B"; "C"]))).
Proof.
  split; [discriminate|].
  apply (swap_trackers_sets_trackers ["A"; "B"; "C"] private_torrent).
  discriminate.
Defined.

(** C2.  On a torrent document the three edits in a row raise nothing, and
    the document they leave agrees with the one they were given on every
    top-level key other than [announce], [announce-list], [url-list] and
    [info]; its [info] is a dictionary that agrees with the old one on
    every key other than [private]. *)
Theorem pipeline_frame (T W : list bytes) (m info : gmap bytes Value) name :
  m !! "info" = Some (Dict info) ->
  info !! "name" = Some (Bytes name) ->
  exists (removed : bool) (m' info' : gmap bytes Value),
    pipeline T W (Dict m) = Ok (removed, Dict m') /\
    m' !! "info" = Some (Dict info') /\
    (forall k, k ∉ edited_keys -> m' !! k = m !! k) /\
    (forall k, k ≠ "private" -> info' !! k = info !! k).
Proof.
  intros Hm Hn.
  destruct (pipeline_document T W m info name Hm Hn) as (m3 & Hrun).
  destruct (pipeline_returns_agrees _ _ _ _ _ Hrun)
    as (m0 & m3' & [= <-] & [= <-] & Hk & Hi).
  eexists _, m3.
  destruct Hi as [Hi|(info0 & Hm0 & Hi)].
  - exists info. rewrite Hi. done.
  - exists (delete "private" info0). rewrite Hm in Hm0.
    injection Hm0 as <-. repeat split; [done..|].
    intros k Hk'. by rewrite lookup_delete_ne.
Qed.

Lemma pipeline_frame_witness :
  private_torrent !! "info" = Some (Dict private_info) /\
  private_info !! "name" = Some (Bytes "file.iso") /\
  exists (removed : bool) (m' info' : gmap bytes Value),
    pipeline default_TRACKERS ["http://host/path/"] (Dict private_torrent)
      = Ok (removed, Dict m') /\
    m' !! "info" = Some (Dict info') /\
    (forall k, k ∉ edited_keys -> m' !! k = private_torrent !! k) /\
    (forall k, k ≠ "private" -> info' !! k = private_info !! k).
Proof.
  split; [reflexivity|]. split; [reflexivity|].
  apply (pipeline_frame default_TRACKERS ["http://host/path/"]
           private_torrent private_info "file.iso"); reflexivity.
Defined.

(** C4.  On a torrent document whose [info] has the key [private],
    [remove_private] returns [True] and leaves the document with that key
    deleted from [info]; on one whose [info] lacks it, [remove_private]
    returns [False] and leaves the document as it was. *)
Theorem remove_private_deletes_flag (m info : gmap bytes Value) :
  m !! "info" = Some (Dict info) ->
  (is_Some (info !! "private") ->
   remove_private (Dict m) =
   Ok (true, Dict (<["info" := Dict (delete "private" info)]> m))) /\
  (info !! "private" = None ->
   remove_private (Dict m) = Ok (false, Dict m)).
Proof.
  intros Hm. split.
  - intros [x Hp]. by eapply remove_private_present.
  - intros Hp. by eapply remove_private_absent.
Qed.

Lemma remove_private_deletes_flag_witness :
  private_torrent !! "info" = Some (Dict private_info) /\
  is_Some (private_info !! "private") /\
  remove_private (Dict private_torrent) =
  Ok (true, Dict (<["info" := Dict (delete "private" private_info)]>
                    private_torrent)).
Proof.
  split; [reflexivity|].
  assert (is_Some (private_info !! "private")) as Hp by (by eexists).
  split; [exact Hp|].
  apply (remove_private_deletes_flag private_torrent private_info);
    [reflexivity | exact Hp].
Defined.

(** C5.  On a torrent document whose [info] has no [files] and a bytes
    [name], with a non-empty webseed list [W], [swap_webseeds] sets
    [url-list] to the list of the base URLs of [W], each followed by the
    bytes of the name, in the order of [W]; nothing else changes. *)
Theorem swap_webseeds_single_file (W : list bytes)
    (m info : gmap bytes Value) name :
  W ≠ [] ->
  m !! "info" = Some (Dict info) ->
  info !! "files" = None ->
  info !! "name" = Some (Bytes name) ->
  swap_webseeds W (Dict m) =
  Ok (Dict (<["url-list" :=
              List (map (fun root => Bytes (root ++ name)) W)]> m)).
Proof.
  intros HW Hm Hf Hn. destruct W as [|w W]; [done|].
  by eapply swap_webseeds_single.
Qed.

Lemma swap_webseeds_single_file_witness :
  ["http://host/path/"] ≠ [] /\
  public_torrent !! "info" = Some (Dict public_info) /\
  public_info !! "files" = None /\
  public_info !! "name" = Some (Bytes "file.iso") /\
  swap_webseeds ["http://host/path/"] (Dict public_torrent) =
  Ok (Dict (<["url-list" := List [Bytes "http://host/path/file.iso"]]>
              public_torrent)).
Proof.
  split; [discriminate|]. do 3 (split; [reflexivity|]).
  apply (swap_webseeds_single_file ["http://host/path/"]
           public_torrent public_info "file.iso");
    [discriminate | reflexivity..].
Defined.

(** C6.  On a torrent document whose [info] has the key [files], with a
    non-empty webseed list [W], [swap_webseeds] sets [url-list] to the
    list of the base URLs of [W] as they are; nothing else changes. *)
Theorem swap_webseeds_multi_file (W : list bytes) (m info : gmap bytes Value) :
  W ≠ [] ->
  m !! "info" = Some (Dict info) ->
  is_Some (info !! "files") ->
  swap_webseeds W (Dict m) = Ok (Dict (<["url-list" := List (map Bytes W)]> m)).
Proof.
  intros HW Hm [x Hf]. destruct W as [|w W]; [done|].
  by eapply swap_webseeds_multi.
Qed.

Lemma swap_webseeds_multi_file_witness :
  ["http://host/path/"] ≠ [] /\
  multi_torrent !! "info" = Some (Dict multi_info) /\
  is_Some (multi_info !! "files") /\
  swap_webseeds ["http://host/path/"] (Dict multi_torrent) =
  Ok (Dict (<["url-list" := List [Bytes "http://host/path/"]]> multi_torrent)).
Proof.
  split; [discriminate|]. split; [reflexivity|].
  assert (is_Some (multi_info !! "files")) as Hf by (by eexists).
  split; [exact Hf|].
  apply (swap_webseeds_multi_file ["http://host/path/"]
           multi_torrent multi_info); [discriminate | reflexivity | exact Hf].
Defined.

(** C9.  On a torrent document [remove_private] returns, and a second call
    on the document it left returns [False] and leaves that document as it
    is: two calls leave what one call leaves. *)
Theorem remove_private_idempotent (m info : gmap bytes Value) :
  m !! "info" = Some (Dict info) ->
  exists (removed : bool) (torrent' : Value),
    remove_private (Dict m) = Ok (removed, torrent') /\
    remove_private torrent' = Ok (false, torrent').
Proof.
  intros Hm.
  assert (exists r t, remove_private (Dict m) = Ok (r, t)) as (r & t & H).
  { destruct (info !! "private") as [x|] eqn:Hp; do 2 eexists.
    - by eapply remove_private_present.
    - by eapply remove_private_absent. }
  exists r, t. split; [done|]. by eapply remove_private_twice.
Qed.

Lemma remove_private_idempotent_witness :
  private_torrent !! "info" = Some (Dict private_info) /\
  exists (removed : bool) (torrent' : Value),
    remove_private (Dict private_torrent) = Ok (removed, torrent') /\
    remove_private torrent' = Ok (false, torrent').
Proof.
  split; [reflexivity|].
  apply (remove_private_idempotent private_torrent private_info).
  reflexivity.
Defined.

(** C10.  With a tracker list of exactly one element, on a dictionary that
    has an [announce-list], [swap_trackers] sets [announce] to that element
    and leaves the [announce-list] it found. *)
Theorem swap_trackers_single_keeps_tiers (t : bytes)
    (m : gmap bytes Value) (old : Value) :
  m !! "announce-list" = Some old ->
  exists m' : gmap bytes Value,
    swap_trackers [t] (Dict m) = Ok (Dict m') /\
    m' !! "announce" = Some (Bytes t) /\
    m' !! "announce-list" = Some old /\
    (forall k, k ≠ "announce" -> m' !! k = m !! k).
Proof.
  intros Hl. eexists. split; [apply swap_trackers_one|].
  split; [apply lookup_insert_eq|]. split.
  - by rewrite lookup_insert_ne.
  - intros k Hk. by rewrite lookup_insert_ne.
Qed.

Lemma swap_trackers_single_keeps_tiers_witness :
  private_torrent !! "announce-list"
    = Some (List [tier "http://tracker.example/announce";
                  tier "http://backup.example/announce"]) /\
  exists m' : gmap bytes Value,
    swap_trackers ["udp://new.example:6969"] (Dict private_torrent)
      = Ok (Dict m') /\
    m' !! "announce" = Some (Bytes "udp://new.example:6969") /\
    m' !! "announce-list"
      = Some (List [tier "http://tracker.example/announce";
                    tier "http://backup.example/announce"]) /\
    (forall k, k ≠ "announce" -> m' !! k = private_torrent !! k).
Proof.
  split; [reflexivity|].
  apply (swap_trackers_single_keeps_tiers "udp://new.example:6969"
           private_torrent); reflexivity.
Defined.

(** ** Where the script and the claims part *)

(** With no tracker configured, [announce] and [announce-list] go when
    each of them is absent or holds a value that counts as true. *)
Lemma swap_trackers_removes_nonempty (m : gmap bytes Value) :
  (forall x, m !! "announce" = Some x -> truthy x = true) ->
  (forall x, m !! "announce-list" = Some x -> truthy x = true) ->
  swap_trackers [] (Dict m) =
  Ok (Dict (delete "announce-list" (delete "announce" m))).
Proof.
  intros Ha Hl. rewrite swap_trackers_nil. do 2 f_equal.
  assert (drop_if_truthy "announce" m = delete "announce" m) as ->.
  { unfold drop_if_truthy. destruct (m !! "announce") as [x|] eqn:Hx.
    - cbn [truthy_opt]. by rewrite (Ha x).
    - cbn [truthy_opt]. by rewrite delete_id. }
  unfold drop_if_truthy. rewrite lookup_delete_ne by done.
  destruct (m !! "announce-list") as [x|] eqn:Hx.
  - cbn [truthy_opt]. by rewrite (Hl x eq_refl).
  - cbn [truthy_opt]. symmetry. apply delete_id.
    by rewrite lookup_delete_ne.
Qed.

Example decode_empty_announce :
  decode empty_announce_source = Some (Dict empty_announce_torrent).
Proof. vm_compute. reflexivity. Qed.

(** C7.  The script at a torrent whose [announce] is the empty bytes, with
    no tracker configured: the test of line 69 reads the value of the entry,
    the empty bytes count as false, and the entry stays; the file that
    [main] writes still has it. *)
Theorem swap_trackers_keeps_empty_announce :
  empty_announce_torrent !! "announce" = Some (Bytes "") /\
  swap_trackers [] (Dict empty_announce_torrent)
    = Ok (Dict empty_announce_torrent) /\
  main decode encode [] []
    {| source := empty_announce_source; destination := Writable;
       force := false |}
    = (Returned true, Some "d8:announce0:4:infod4:name8:file.isoee").
Proof. vm_compute. done. Qed.

(** C3.  The script at a file that holds the bencoded integer 5: the
    decoded value counts as true, so line 108 lets it through, and the
    subscript of line 51 raises [TypeError]; the message of line 109 is not
    printed.  Nothing is written. *)
Theorem main_integer_uncaught :
  decode integer_source = Some (Int 5) /\
  main decode encode default_TRACKERS default_WEBSEEDS
    {| source := integer_source; destination := Writable; force := false |}
    = (Uncaught TypeError, None) /\
  script decode encode default_TRACKERS default_WEBSEEDS
    {| source := integer_source; destination := Writable; force := false |}
    = (Uncaught TypeError, None).
Proof. vm_compute. done. Qed.

(** C8.  On a decoded torrent document whose [info] lacks [private]:
    without [force], [main] reports that the torrent is already public and
    writes nothing; with [force], the three edits run without an exception
    and [main] returns what [write_torrent] returns for the document they
    leave, so that a destination that takes the bytes ends with the encoded
    document and the exit status 0. *)
Theorem main_already_public (bdecode : bytes -> option Value)
    (bencode : Value -> bytes) (T W : list bytes) (results : Namespace)
    (m info : gmap bytes Value) name :
  bdecode (source results) = Some (Dict m) ->
  m !! "info" = Some (Dict info) ->
  info !! "name" = Some (Bytes name) ->
  info !! "private" = None ->
  (force results = false ->
   main bdecode bencode T W results = (Exited 2 AlreadyPublic, None) /\
   script bdecode bencode T W results = (Exited 2 AlreadyPublic, None)) /\
  (force results = true ->
   exists m' : gmap bytes Value,
     pipeline T W (Dict m) = Ok (false, Dict m') /\
     main bdecode bencode T W results =
       (let '(success, written) :=
          write_torrent bencode (Dict m') (destination results) in
        (Returned success, written)) /\
     (destination results = Writable ->
      script bdecode bencode T W results =
        (Exited 0 WrittenSuccessfully, Some (bencode (Dict m'))))).
Proof.
  intros Hd Hm Hn Hp.
  destruct (pipeline_document T W m info name Hm Hn) as (m' & Hrun).
  rewrite bool_decide_eq_false_2 in Hrun by (rewrite Hp; by intros [? ?]).
  pose proof (main_runs_pipeline bdecode bencode T W results m _ Hd Hm) as Hmain.
  rewrite Hrun in Hmain. cbn [negb andb] in Hmain.
  split; intros Hf; rewrite Hf in Hmain.
  - split; [done|]. unfold script. by rewrite Hmain.
  - exists m'. split; [done|]. split; [done|].
    intros Hw. unfold script. rewrite Hmain, Hw. done.
Qed.

Lemma main_already_public_witness :
  decode public_source = Some (Dict {[ "info" := Dict {[ "name" := Bytes "file.iso" ]} ]}) /\
  (main decode encode default_TRACKERS default_WEBSEEDS
     {| source := public_source; destination := Writable; force := false |}
   = (Exited 2 AlreadyPublic, None)) /\
  exists m' : gmap bytes Value,
    pipeline default_TRACKERS default_WEBSEEDS
      (Dict {[ "info" := Dict {[ "name" := Bytes "file.iso" ]} ]})
      = Ok (false, Dict m') /\
    script decode encode default_TRACKERS default_WEBSEEDS
      {| source := public_source; destination := Writable; force := true |}
    = (Exited 0 WrittenSuccessfully, Some (encode (Dict m'))).
Proof.
  split; [vm_compute; reflexivity|]. split.
  - apply (main_already_public decode encode default_TRACKERS default_WEBSEEDS
             {| source := public_source; destination := Writable;
                force := false |}
             {[ "info" := Dict {[ "name" := Bytes "file.iso" ]} ]}
             {[ "name" := Bytes "file.iso" ]} "file.iso");
      reflexivity.
  - destruct (main_already_public decode encode default_TRACKERS
                default_WEBSEEDS
                {| source := public_source; destination := Writable;
                   force := true |}
                {[ "info" := Dict {[ "name" := Bytes "file.iso" ]} ]}
                {[ "name" := Bytes "file.iso" ]} "file.iso")
      as [_ H]; [reflexivity..|].
    destruct (H eq_refl) as (m' & Hrun & _ & Hs).
    exists m'. split; [exact Hrun | exact (Hs eq_refl)].
Defined.

(** * The edits as updates of single keys *)

Lemma swap_trackers_Dict T (m : gmap bytes Value) :
  swap_trackers T (Dict m) = Ok (Dict (trackers_swapped T m)).
Proof.
  destruct T as [|t1 [|t2 rest]].
  - apply swap_trackers_nil.
  - apply swap_trackers_one.
  - apply swap_trackers_many.
Qed.

Lemma set_or_delete_lookup k o (m : gmap bytes Value) j :
  set_or_delete k o m !! j = if decide (k = j) then o else m !! j.
Proof.
  unfold set_or_delete. destruct o as [x|].
  - apply lookup_insert.
  - rewrite lookup_delete. by case_decide.
Qed.

Lemma drop_if_truthy_lookup k (m : gmap bytes Value) j :
  drop_if_truthy k m !! j =
  if decide (k = j) then (if truthy_opt (m !! j) then None else m !! j)
  else m !! j.
Proof.
  unfold drop_if_truthy. case_decide as Hk.
  - subst j. destruct (truthy_opt (m !! k)); [apply lookup_delete_eq | done].
  - destruct (truthy_opt (m !! k)); [by rewrite lookup_delete_ne | done].
Qed.

Lemma trackers_swapped_lookup T (m : gmap bytes Value) k :
  trackers_swapped T m !! k = tracker_entry T k (m !! k).
Proof.
  unfold tracker_entry. destruct T as [|t1 [|t2 rest]]; cbn [trackers_swapped].
  - rewrite !drop_if_truthy_lookup. repeat case_decide; congruence.
  - rewrite lookup_insert. repeat case_decide; congruence.
  - rewrite !lookup_insert. repeat case_decide; congruence.
Qed.

Lemma tracker_entry_twice T k old :
  tracker_entry T k (tracker_entry T k old) = tracker_entry T k old.
Proof.
  unfold tracker_entry. repeat case_decide; destruct T as [|t1 [|t2 rest]];
    try done; by destruct (truthy_opt old) eqn:E; rewrite ?E.
Qed.

Lemma swap_webseeds_Dict W (m : gmap bytes Value) :
  swap_webseeds W (Dict m) =
  (new ← webseeds_for W (m !! "info");
   Ok (Dict (set_or_delete "url-list" new m))).
Proof.
  destruct W as [|w W]; [apply swap_webseeds_nil|].
  unfold swap_webseeds, webseeds_for. run.
  destruct (m !! "info") as [i|] eqn:Hm; run; [|done].
  destruct (contains "files" i) as [[|]|e]; run; [done| |done].
  rewrite (lookup_insert_ne _ "url-list" "info"), Hm by done. run.
  destruct (getitem i "name") as [name|e]; run; [|done].
  destruct name as [z|n|l|d]; try done.
  erewrite (for_each_append_at (fun root => Bytes (root ++ n)));
    [|done|apply lookup_insert_eq].
  run. by rewrite insert_insert_eq.
Qed.

Lemma webseeds_for_twice W o (m : gmap bytes Value) new :
  webseeds_for W o = Ok new ->
  set_or_delete "url-list" new (set_or_delete "url-list" new m)
  = set_or_delete "url-list" new m.
Proof.
  intros _. apply map_eq. intros j. rewrite !set_or_delete_lookup.
  by case_decide.
Qed.

Lemma trackers_swapped_twice T (m : gmap bytes Value) :
  trackers_swapped T (trackers_swapped T m) = trackers_swapped T m.
Proof.
  apply map_eq. intros k.
  by rewrite !trackers_swapped_lookup, tracker_entry_twice.
Qed.

Lemma tracker_entry_other T k old :
  k ≠ "announce" -> k ≠ "announce-list" -> tracker_entry T k old = old.
Proof. intros H1 H2. unfold tracker_entry. by repeat case_decide. Qed.

(** The two swaps write different keys, so either may go first. *)
Lemma trackers_swapped_set_or_delete T o (m : gmap bytes Value) :
  set_or_delete "url-list" o (trackers_swapped T m)
  = trackers_swapped T (set_or_delete "url-list" o m).
Proof.
  apply map_eq. intros k.
  rewrite set_or_delete_lookup, !trackers_swapped_lookup, set_or_delete_lookup.
  case_decide as Hk; [|done]. subst k. by rewrite tracker_entry_other.
Qed.

(** * Further properties of the edits *)

(** X1.  With no webseed configured, [swap_webseeds] raises nothing on a
    dictionary; afterwards there is no [url-list], whatever its value was,
    and every other entry is as before. *)
Theorem swap_webseeds_empty_removes (m : gmap bytes Value) :
  exists m' : gmap bytes Value,
    swap_webseeds [] (Dict m) = Ok (Dict m') /\
    m' !! "url-list" = None /\
    forall k, k ≠ "url-list" -> m' !! k = m !! k.
Proof.
  eexists. split; [apply swap_webseeds_nil|]. split.
  - apply lookup_delete_eq.
  - intros k Hk. by rewrite lookup_delete_ne.
Qed.

(** X3.  On a dictionary [swap_trackers] raises nothing, and a second call
    changes nothing more. *)
Theorem swap_trackers_idempotent (T : list bytes) (m : gmap bytes Value) :
  exists torrent' : Value,
    swap_trackers T (Dict m) = Ok torrent' /\
    swap_trackers T torrent' = Ok torrent'.
Proof.
  eexists. split; [apply swap_trackers_Dict|].
  by rewrite swap_trackers_Dict, trackers_swapped_twice.
Qed.

(** X4.  When [swap_webseeds] returns on a dictionary, a second call
    returns too and changes nothing more. *)
Theorem swap_webseeds_idempotent (W : list bytes) (m : gmap bytes Value)
    (torrent' : Value) :
  swap_webseeds W (Dict m) = Ok torrent' ->
  swap_webseeds W torrent' = Ok torrent'.
Proof.
  rewrite swap_webseeds_Dict.
  destruct (webseeds_for W (m !! "info")) as [new|e] eqn:Hw; run;
    [|discriminate].
  intros [= <-]. rewrite swap_webseeds_Dict, set_or_delete_lookup.
  rewrite decide_False by done. rewrite Hw. run.
  by rewrite (webseeds_for_twice _ _ _ _ Hw).
Qed.

Lemma swap_webseeds_idempotent_witness :
  swap_webseeds ["http://host/path/"] (Dict public_torrent)
    = Ok (Dict (<["url-list" := List [Bytes "http://host/path/file.iso"]]>
                  public_torrent)) /\
  swap_webseeds ["http://host/path/"]
    (Dict (<["url-list" := List [Bytes "http://host/path/file.iso"]]>
             public_torrent))
    = Ok (Dict (<["url-list" := List [Bytes "http://host/path/file.iso"]]>
                  public_torrent)).
Proof.
  assert (swap_webseeds ["http://host/path/"] (Dict public_torrent)
          = Ok (Dict (<["url-list" :=
                         List [Bytes "http://host/path/file.iso"]]>
                        public_torrent))) as H by (vm_compute; reflexivity).
  split; [exact H|].
  exact (swap_webseeds_idempotent ["http://host/path/"] public_torrent _ H).
Defined.

(** X5.  On a dictionary the two swaps commute: trackers first or webseeds
    first, the outcome is the same document, or the same exception. *)
Theorem swap_trackers_swap_webseeds_commute (T W : list bytes)
    (m : gmap bytes Value) :
  (torrent ← swap_trackers T (Dict m); swap_webseeds W torrent) =
  (torrent ← swap_webseeds W (Dict m); swap_trackers T torrent).
Proof.
  rewrite swap_trackers_Dict. run. rewrite !swap_webseeds_Dict.
  rewrite trackers_swapped_lookup, tracker_entry_other by done.
  destruct (webseeds_for W (m !! "info")) as [new|e]; run; [|done].
  by rewrite swap_trackers_Dict, trackers_swapped_set_or_delete.
Qed.

(** X6.  With a webseed configured, on a single-file torrent whose [info]
    has no [name], [swap_webseeds] raises [KeyError] for [name]. *)
Theorem swap_webseeds_missing_name (W : list bytes)
    (m info : gmap bytes Value) :
  W ≠ [] ->
  m !! "info" = Some (Dict info) ->
  info !! "files" = None ->
  info !! "name" = None ->
  swap_webseeds W (Dict m) = Raise (KeyError "name").
Proof.
  intros HW Hm Hf Hn. rewrite swap_webseeds_Dict, Hm.
  destruct W as [|w W]; [done|]. unfold webseeds_for. run.
  rewrite bool_decide_eq_false_2 by (rewrite Hf; by intros [? ?]).
  by rewrite Hn.
Qed.

Lemma swap_webseeds_missing_name_witness :
  swap_webseeds ["http://host/path/"] (Dict nameless_torrent)
  = Raise (KeyError "name").
Proof.
  apply (swap_webseeds_missing_name ["http://host/path/"] nameless_torrent
           {[ "piece length" := Int 16384; "private" := Int 1 ]});
    [discriminate | reflexivity..].
Defined.

(** X7.  With a webseed configured, on a single-file torrent whose [name]
    is not a bytes object, [swap_webseeds] raises [TypeError]. *)
Theorem swap_webseeds_name_not_bytes (W : list bytes)
    (m info : gmap bytes Value) (name : Value) :
  W ≠ [] ->
  m !! "info" = Some (Dict info) ->
  info !! "files" = None ->
  info !! "name" = Some name ->
  (forall n, name ≠ Bytes n) ->
  swap_webseeds W (Dict m) = Raise TypeError.
Proof.
  intros HW Hm Hf Hn Hb. rewrite swap_webseeds_Dict, Hm.
  destruct W as [|w W]; [done|]. unfold webseeds_for. run.
  rewrite bool_decide_eq_false_2 by (rewrite Hf; by intros [? ?]).
  rewrite Hn. run. destruct name as [z|n|l|d]; try done. by destruct (Hb n).
Qed.

Lemma swap_webseeds_name_not_bytes_witness :
  swap_webseeds ["http://host/path/"] (Dict numbered_torrent)
  = Raise TypeError.
Proof.
  apply (swap_webseeds_name_not_bytes ["http://host/path/"] numbered_torrent
           {[ "name" := Int 7; "private" := Int 1 ]} (Int 7));
    [discriminate | reflexivity.. | discriminate].
Defined.

(** ** The edits one after the other *)

(** On a document [remove_private] is one update of [info]; deleting a
    key that is not there changes nothing. *)
Lemma remove_private_document (m info : gmap bytes Value) :
  m !! "info" = Some (Dict info) ->
  remove_private (Dict m) =
  Ok (bool_decide (is_Some (info !! "private")),
      Dict (<["info" := Dict (delete "private" info)]> m)).
Proof.
  intros Hm. destruct (info !! "private") as [x|] eqn:Hp.
  - rewrite bool_decide_eq_true_2 by eauto. by eapply remove_private_present.
  - rewrite bool_decide_eq_false_2 by (by intros [? ?]).
    rewrite delete_id, insert_id by done. by eapply remove_private_absent.
Qed.

(** A call that reports [False] read nothing but [info]. *)
Lemma remove_private_false_info (m m' : gmap bytes Value) :
  remove_private (Dict m) = Ok (false, Dict m) ->
  m' !! "info" = m !! "info" ->
  remove_private (Dict m') = Ok (false, Dict m').
Proof.
  unfold remove_private. run. intros H ->. revert H.
  destruct (m !! "info") as [i|]; run; [|done].
  destruct (contains "private" i) as [[|]|e]; run; [|done..].
  by destruct (delitem i "private").
Qed.

Lemma webseeds_for_delete_private W (info : gmap bytes Value) :
  webseeds_for W (Some (Dict (delete "private" info)))
  = webseeds_for W (Some (Dict info)).
Proof.
  unfold webseeds_for. destruct W; [done|]. run.
  by rewrite !lookup_delete_ne.
Qed.

(** What the three edits leave is a fixed point of each of them. *)
Lemma pipeline_result_settled T W v removed v' :
  pipeline T W v = Ok (removed, v') ->
  remove_private v' = Ok (false, v') /\
  swap_trackers T v' = Ok v' /\
  swap_webseeds W v' = Ok v'.
Proof.
  unfold pipeline.
  destruct (remove_private v) as [[r v1]|e] eqn:H1; run; [|discriminate].
  apply remove_private_twice in H1.
  destruct (remove_private_inv _ _ _ H1) as (m1 & i & -> & _ & _).
  rewrite swap_trackers_Dict. run. rewrite swap_webseeds_Dict.
  rewrite trackers_swapped_lookup, tracker_entry_other by done.
  destruct (webseeds_for W (m1 !! "info")) as [new|e] eqn:Hw; run;
    [|discriminate].
  intros [= _ <-].
  assert (set_or_delete "url-list" new (trackers_swapped T m1) !! "info"
          = m1 !! "info") as Hi.
  { rewrite set_or_delete_lookup, decide_False by done.
    by rewrite trackers_swapped_lookup, tracker_entry_other. }
  split; [by apply (remove_private_false_info m1)|]. split.
  - rewrite swap_trackers_Dict, trackers_swapped_set_or_delete.
    by rewrite trackers_swapped_twice.
  - rewrite swap_webseeds_Dict, Hi, Hw. run.
    by rewrite (webseeds_for_twice _ _ _ _ Hw).
Qed.

(** X8.  Whatever value it is given, when [remove_private] returns [False]
    it left the value as it was, and when it returns [True] the value was a
    dictionary whose [info] was a dictionary with the key [private], and
    that key is what it deleted. *)
Theorem remove_private_returns (v v' : Value) (removed : bool) :
  remove_private v = Ok (removed, v') ->
  (removed = false -> v' = v) /\
  (removed = true ->
   exists m info : gmap bytes Value,
     v = Dict m /\ m !! "info" = Some (Dict info) /\
     is_Some (info !! "private") /\
     v' = Dict (<["info" := Dict (delete "private" info)]> m)).
Proof.
  intros H.
  destruct (remove_private_inv _ _ _ H)
    as (m & i & -> & Hm & [[-> ->]|(info & -> & -> & Hp & ->)]).
  - split; [done|discriminate].
  - split; [discriminate|]. intros _. by exists m, info.
Qed.

Lemma remove_private_returns_witness :
  remove_private (Dict private_torrent)
    = Ok (true, Dict (<["info" := Dict (delete "private" private_info)]>
                         private_torrent)) /\
  exists m info : gmap bytes Value,
    Dict private_torrent = Dict m /\ m !! "info" = Some (Dict info) /\
    is_Some (info !! "private") /\
    Dict (<["info" := Dict (delete "private" private_info)]> private_torrent)
    = Dict (<["info" := Dict (delete "private" info)]> m).
Proof.
  assert (remove_private (Dict private_torrent)
          = Ok (true, Dict (<["info" := Dict (delete "private" private_info)]>
                              private_torrent))) as H
    by (vm_compute; reflexivity).
  split; [exact H|].
  exact (proj2 (remove_private_returns _ _ _ H) eq_refl).
Defined.

(** X9.  Whatever value they are given, when the three edits return, a
    second run on what they left returns too, reports [False] and changes
    nothing more. *)
Theorem pipeline_idempotent (T W : list bytes) (v v' : Value)
    (removed : bool) :
  pipeline T W v = Ok (removed, v') ->
  pipeline T W v' = Ok (false, v').
Proof.
  intros (H1 & H2 & H3)%pipeline_result_settled.
  unfold pipeline. rewrite H1. run. rewrite H2. run. by rewrite H3.
Qed.

Lemma pipeline_idempotent_witness :
  pipeline default_TRACKERS ["http://host/path/"] (Dict private_torrent)
    = Ok (true,
          Dict (<["url-list" := List [Bytes "http://host/path/file.iso"]]>
                  (<["announce-list" := List (map tier default_TRACKERS)]>
                     (<["announce" := Bytes "udp://tracker.opentrackr.org:1337"]>
                        (<["info" := Dict public_info]> private_torrent))))) /\
  pipeline default_TRACKERS ["http://host/path/"]
    (Dict (<["url-list" := List [Bytes "http://host/path/file.iso"]]>
             (<["announce-list" := List (map tier default_TRACKERS)]>
                (<["announce" := Bytes "udp://tracker.opentrackr.org:1337"]>
                   (<["info" := Dict public_info]> private_torrent)))))
    = Ok (false,
          Dict (<["url-list" := List [Bytes "http://host/path/file.iso"]]>
                  (<["announce-list" := List (map tier default_TRACKERS)]>
                     (<["announce" := Bytes "udp://tracker.opentrackr.org:1337"]>
                        (<["info" := Dict public_info]> private_torrent))))).
Proof.
  assert (pipeline default_TRACKERS ["http://host/path/"] (Dict private_torrent)
    = Ok (true,
          Dict (<["url-list" := List [Bytes "http://host/path/file.iso"]]>
                  (<["announce-list" := List (map tier default_TRACKERS)]>
                     (<["announce" := Bytes "udp://tracker.opentrackr.org:1337"]>
                        (<["info" := Dict public_info]> private_torrent))))))
    as H by (vm_compute; reflexivity).
  split; [exact H|].
  exact (pipeline_idempotent _ _ _ _ _ H).
Defined.

(** X10.  Whatever value they are given, when the three edits return a
    dictionary whose [info] is a dictionary, that [info] has no key
    [private]. *)
Theorem pipeline_leaves_no_private (T W : list bytes) (v : Value)
    (removed : bool) (m' info' : gmap bytes Value) :
  pipeline T W v = Ok (removed, Dict m') ->
  m' !! "info" = Some (Dict info') ->
  info' !! "private" = None.
Proof.
  intros (H1 & _)%pipeline_result_settled Hm.
  destruct (info' !! "private") as [x|] eqn:Hp; [|done].
  by rewrite (remove_private_present _ _ _ Hm Hp) in H1.
Qed.

Lemma pipeline_leaves_no_private_witness :
  pipeline default_TRACKERS default_WEBSEEDS (Dict private_torrent)
    = Ok (true,
          Dict (<["announce-list" := List (map tier default_TRACKERS)]>
                  (<["announce" := Bytes "udp://tracker.opentrackr.org:1337"]>
                     (<["info" := Dict public_info]> private_torrent)))) /\
  public_info !! "private" = None.
Proof.
  assert (pipeline default_TRACKERS default_WEBSEEDS (Dict private_torrent)
    = Ok (true,
          Dict (<["announce-list" := List (map tier default_TRACKERS)]>
                  (<["announce" := Bytes "udp://tracker.opentrackr.org:1337"]>
                     (<["info" := Dict public_info]> private_torrent)))))
    as H by (vm_compute; reflexivity).
  split; [exact H|].
  apply (pipeline_leaves_no_private _ _ _ _ _ public_info H).
  vm_compute. reflexivity.
Defined.

(** X11.  On a dictionary whose [info] is a dictionary the order of the
    three edits does not matter: webseeds, trackers, then the private flag
    give the boolean and the document, or the exception, that the order of
    [main] gives. *)
Theorem pipeline_order_irrelevant (T W : list bytes)
    (m info : gmap bytes Value) :
  m !! "info" = Some (Dict info) ->
  (torrent ← swap_webseeds W (Dict m);
   torrent ← swap_trackers T torrent;
   remove_private torrent)
  = pipeline T W (Dict m).
Proof.
  intros Hm. unfold pipeline.
  rewrite (remove_private_document _ _ Hm). run.
  rewrite swap_trackers_Dict. run. rewrite !swap_webseeds_Dict.
  rewrite trackers_swapped_lookup, tracker_entry_other by done.
  rewrite lookup_insert_eq, Hm, webseeds_for_delete_private.
  destruct (webseeds_for W (Some (Dict info))) as [new|e]; run; [|done].
  rewrite swap_trackers_Dict. run.
  rewrite (remove_private_document _ info).
  - do 3 f_equal. apply map_eq. intros k.
    rewrite set_or_delete_lookup, trackers_swapped_lookup.
    rewrite !lookup_insert, trackers_swapped_lookup, set_or_delete_lookup.
    repeat case_decide; subst; done.
  - rewrite trackers_swapped_lookup, tracker_entry_other by done.
    by rewrite set_or_delete_lookup, decide_False.
Qed.

Lemma pipeline_order_irrelevant_witness :
  private_torrent !! "info" = Some (Dict private_info) /\
  (torrent ← swap_webseeds ["http://host/path/"] (Dict private_torrent);
   torrent ← swap_trackers default_TRACKERS torrent;
   remove_private torrent)
  = pipeline default_TRACKERS ["http://host/path/"] (Dict private_torrent).
Proof.
  split; [reflexivity|].
  apply (pipeline_order_irrelevant default_TRACKERS ["http://host/path/"]
           private_torrent private_info).
  reflexivity.
Defined.

(** * Further properties of the program *)

Section Program.

Variable bdecode : bytes -> option Value.
Variable bencode : Value -> bytes.
Variables TRACKERS WEBSEEDS : list bytes.

(** The ways through [main], one by one. *)
Lemma main_cases results :
  let run := main bdecode bencode TRACKERS WEBSEEDS results in
  (truthy_opt (bdecode (source results)) = false /\
   run = (Exited 1 NotAProperTorrent, None)) \/
  (exists t, bdecode (source results) = Some t /\ truthy t = true /\
     ((exists e, remove_private t = Raise e /\ run = (Uncaught e, None)) \/
      (exists t1, remove_private t = Ok (false, t1) /\
         force results = false /\ run = (Exited 2 AlreadyPublic, None)) \/
      (exists removed t1 e,
         remove_private t = Ok (removed, t1) /\
         (removed = true \/ force results = true) /\
         pipeline TRACKERS WEBSEEDS t = Raise e /\
         run = (Uncaught e, None)) \/
      (exists removed t',
         pipeline TRACKERS WEBSEEDS t = Ok (removed, t') /\
         (removed = true \/ force results = true) /\
         ((destination results = Writable /\
           run = (Returned true, Some (bencode t'))) \/
          (destination results = Failing /\
           run = (Returned false, None)))))).
Proof.
  cbv zeta. unfold main, pipeline.
  destruct (bdecode (source results)) as [t|]; [|left; split; reflexivity].
  cbn [truthy_opt]. destruct (truthy t) eqn:Ht; [|left; split; reflexivity].
  right. exists t. split; [reflexivity|]. split; [exact Ht|]. cbn [negb].
  destruct (remove_private t) as [[removed t1]|e]; run.
  2: { left. exists e. split; reflexivity. }
  right.
  assert (removed = false /\ force results = false \/
          (removed = true \/ force results = true)) as [[-> Hf]|Hgo].
  { destruct removed, (force results); auto. }
  { left. exists t1. rewrite Hf. repeat split. }
  right.
  assert (negb removed && negb (force results) = false) as ->.
  { destruct Hgo as [->| ->]; [reflexivity|apply andb_false_r]. }
  destruct (swap_trackers TRACKERS t1) as [t2|e]; run.
  2: { left. exists removed, t1, e. repeat split; assumption. }
  destruct (swap_webseeds WEBSEEDS t2) as [t3|e]; run.
  2: { left. exists removed, t1, e. repeat split; assumption. }
  right. exists removed, t3. split; [reflexivity|]. split; [assumption|].
  destruct (destination results); [left|right]; split; reflexivity.
Qed.

Ltac main_cases results :=
  let H := fresh in
  pose proof (main_cases results) as H; cbv zeta in H;
  destruct H as
    [[?Hd ?Hrun]
    |(?t & ?Hd & ?Ht &
      [(?e & ?Hr & ?Hrun)
      |[(?t1 & ?Hr & ?Hf & ?Hrun)
       |[(?removed & ?t1 & ?e & ?Hr & ?Hgo & ?Hp & ?Hrun)
        |(?removed & ?t' & ?Hp & ?Hgo &
          [[?Hw ?Hrun]|[?Hw ?Hrun]])]]])].


(** X13.  [main] reports that the source is no proper torrent exactly when
    the decoder gave [None] or a value that counts as false: zero, the
    empty bytes, the empty list, the empty dictionary. *)
Theorem main_not_proper_iff (results : Namespace) :
  (main bdecode bencode TRACKERS WEBSEEDS results).1
    = Exited 1 NotAProperTorrent
  <-> truthy_opt (bdecode (source results)) = false.
Proof.
  main_cases results; rewrite Hrun; cbn [fst]; split; try done;
    rewrite Hd; cbn [truthy_opt]; rewrite Ht; discriminate.
Qed.

(** X14.  A decoded dictionary that is not empty and has no [info] makes
    the first subscript of [remove_private] raise [KeyError]; nothing
    catches it and nothing is written. *)
Theorem main_missing_info (results : Namespace) (m : gmap bytes Value) :
  bdecode (source results) = Some (Dict m) ->
  m ≠ ∅ ->
  m !! "info" = None ->
  main bdecode bencode TRACKERS WEBSEEDS results
  = (Uncaught (KeyError "info"), None).
Proof.
  intros Hd Hne Hi. unfold main. rewrite Hd. cbn [truthy_opt truthy].
  rewrite bool_decide_eq_false_2 by (by rewrite dom_empty_iff_L).
  cbn [negb]. unfold remove_private. run. by rewrite Hi.
Qed.

(** X15.  A decoded value that is not a dictionary never reaches the
    edits: when it counts as false [main] reports that the source is no
    proper torrent, otherwise the first subscript of [remove_private] raises
    [TypeError]; nothing is written either way. *)
Theorem main_non_dictionary (results : Namespace) (v : Value) :
  bdecode (source results) = Some v ->
  (forall m, v ≠ Dict m) ->
  main bdecode bencode TRACKERS WEBSEEDS results =
  (if truthy v then Uncaught TypeError else Exited 1 NotAProperTorrent, None).
Proof. apply main_not_dictionary. Qed.

(** X16.  When [remove_private] finds and removes the flag, [force] makes
    no difference to what [main] does. *)
Theorem main_force_irrelevant (src : bytes) (dest : file) (t t' : Value) :
  bdecode src = Some t ->
  remove_private t = Ok (true, t') ->
  main bdecode bencode TRACKERS WEBSEEDS
    {| source := src; destination := dest; force := true |}
  = main bdecode bencode TRACKERS WEBSEEDS
      {| source := src; destination := dest; force := false |}.
Proof.
  intros Hd Hr. unfold main. cbn [source destination force].
  rewrite Hd. cbn [truthy_opt]. destruct (truthy t); cbn [negb]; [|done].
  by rewrite Hr.
Qed.



End Program.


Lemma main_missing_info_witness :
  decode "d7:comment13:not a torrente" = Some (Dict stray_dictionary) /\
  stray_dictionary ≠ ∅ /\
  stray_dictionary !! "info" = None /\
  main decode encode default_TRACKERS default_WEBSEEDS
    {| source := "d7:comment13:not a torrente"; destination := Writable;
       force := true |}
  = (Uncaught (KeyError "info"), None).
Proof.
  assert (stray_dictionary ≠ ∅) as Hne.
  { intros H. apply (f_equal (fun m : gmap bytes Value => m !! "comment")) in H.
    vm_compute in H. discriminate H. }
  split; [vm_compute; reflexivity|]. split; [exact Hne|].
  split; [reflexivity|].
  apply (main_missing_info decode encode default_TRACKERS default_WEBSEEDS
           {| source := "d7:comment13:not a torrente";
              destination := Writable; force := true |} stray_dictionary);
    [vm_compute; reflexivity | exact Hne | reflexivity].
Defined.

Lemma main_non_dictionary_witness :
  decode "l4:spame" = Some (List [Bytes "spam"]) /\
  main decode encode default_TRACKERS default_WEBSEEDS
    {| source := "l4:spame"; destination := Writable; force := false |}
  = (Uncaught TypeError, None).
Proof.
  split; [vm_compute; reflexivity|].
  apply (main_non_dictionary decode encode default_TRACKERS default_WEBSEEDS
           {| source := "l4:spame"; destination := Writable; force := false |}
           (List [Bytes "spam"]));
    [vm_compute; reflexivity | discriminate].
Defined.

Lemma main_force_irrelevant_witness :
  decode empty_announce_source = Some (Dict empty_announce_torrent) /\
  main decode encode default_TRACKERS default_WEBSEEDS
    {| source := empty_announce_source; destination := Writable;
       force := true |}
  = main decode encode default_TRACKERS default_WEBSEEDS
      {| source := empty_announce_source; destination := Writable;
         force := false |}.
Proof.
  split; [vm_compute; reflexivity|].
  apply (main_force_irrelevant decode encode default_TRACKERS default_WEBSEEDS
           empty_announce_source Writable (Dict empty_announce_torrent)
           (Dict (<["info" := Dict {[ "name" := Bytes "file.iso" ]}]>
                    empty_announce_torrent)));
    vm_compute; reflexivity.
Defined.

(** X2.  With no tracker configured, on a dictionary whose [announce] and
    [announce-list] are each absent or hold a value that counts as true,
    [swap_trackers] leaves neither key and changes nothing else. *)
Theorem swap_trackers_empty_removes (m : gmap bytes Value) :
  (forall x, m !! "announce" = Some x -> truthy x = true) ->
  (forall x, m !! "announce-list" = Some x -> truthy x = true) ->
  exists m' : gmap bytes Value,
    swap_trackers [] (Dict m) = Ok (Dict m') /\
    m' !! "announce" = None /\
    m' !! "announce-list" = None /\
    forall k, k ≠ "announce" -> k ≠ "announce-list" -> m' !! k = m !! k.
Proof.
  intros Ha Hl. eexists.
  split; [by apply swap_trackers_removes_nonempty|]. split; [|split].
  - rewrite lookup_delete_ne by done. apply lookup_delete_eq.
  - apply lookup_delete_eq.
  - intros k H1 H2. by rewrite !lookup_delete_ne.
Qed.

Lemma swap_trackers_empty_removes_witness :
  exists m' : gmap bytes Value,
    swap_trackers [] (Dict private_torrent) = Ok (Dict m') /\
    m' !! "announce" = None /\
    m' !! "announce-list" = None /\
    forall k, k ≠ "announce" -> k ≠ "announce-list" ->
              m' !! k = private_torrent !! k.
Proof.
  apply (swap_trackers_empty_removes private_torrent).
  - intros x H. vm_compute in H. injection H as <-. reflexivity.
  - intros x H. vm_compute in H. injection H as <-. reflexivity.
Defined.

(** X19.  With the trackers and webseeds that the script ships, for any
    decoder and encoder: a decoded torrent whose [info] is a dictionary with
    the key [private], and a destination that takes the bytes, end in exit
    status 0; what is written encodes the document with [private] deleted
    from [info], [announce] set to the first shipped tracker,
    [announce-list] set to the five one-tracker tiers and [url-list]
    deleted.  [force] plays no part. *)
Theorem script_converts_private (bdecode : bytes -> option Value)
    (bencode : Value -> bytes) (results : Namespace)
    (m info : gmap bytes Value) :
  bdecode (source results) = Some (Dict m) ->
  m !! "info" = Some (Dict info) ->
  is_Some (info !! "private") ->
  destination results = Writable ->
  script bdecode bencode default_TRACKERS default_WEBSEEDS results =
  (Exited 0 WrittenSuccessfully,
   Some (bencode
     (Dict (delete "url-list"
        (<["announce-list" := List (map tier default_TRACKERS)]>
           (<["announce" := Bytes "udp://tracker.opentrackr.org:1337"]>
              (<["info" := Dict (delete "private" info)]> m))))))).
Proof.
  intros Hd Hm Hp Hw. unfold script.
  rewrite (main_runs_pipeline _ _ _ _ _ _ _ Hd Hm). unfold pipeline.
  rewrite (remove_private_document _ _ Hm), bool_decide_eq_true_2 by done.
  run. rewrite swap_trackers_Dict. run. rewrite swap_webseeds_nil.
  cbn [negb andb]. unfold write_torrent. by rewrite Hw.
Qed.

Lemma script_converts_private_witness :
  decode empty_announce_source = Some (Dict empty_announce_torrent) /\
  script decode encode default_TRACKERS default_WEBSEEDS
    {| source := empty_announce_source; destination := Writable;
       force := false |}
  = (Exited 0 WrittenSuccessfully,
     Some (encode
       (Dict (delete "url-list"
          (<["announce-list" := List (map tier default_TRACKERS)]>
             (<["announce" := Bytes "udp://tracker.opentrackr.org:1337"]>
                (<["info" := Dict (delete "private"
                                     {[ "name" := Bytes "file.iso";
                                        "private" := Int 1 ]})]>
                   empty_announce_torrent))))))).
Proof.
  split; [vm_compute; reflexivity|].
  apply (script_converts_private decode encode
           {| source := empty_announce_source; destination := Writable;
              force := false |}
           empty_announce_torrent
           {[ "name" := Bytes "file.iso"; "private" := Int 1 ]}).
  - vm_compute; reflexivity.
  - reflexivity.
  - by eexists.
  - reflexivity.
Defined.
